(** * The greeting handler of [examples/src/lambda_function.py]

    A shallow embedding of [lambda_handler] together with the parts of the
    Python runtime it calls ([json.dumps], [dict.get], attribute access,
    truthiness, f-string formatting, [os.environ.get], [logger.info]), and
    of [json.loads], through which the claims of the specification observe
    the response body.

    Modelling conventions.
    - A Python [str] is a Rocq [string]; each character stands for the code
      point with the same number, so the strings covered are those over the
      code points 0..255.
    - Python values are the inductive type [pyval]: [None], booleans,
      unbounded integers, strings, lists, dictionaries with string keys
      (association lists in insertion order) and opaque objects, which carry
      their truth value, their [str()] text and their data attributes.
      Floats, tuples, dictionaries with other keys and objects with methods
      are outside the embedding.
    - Exceptions are values of [exn]; the handler runs in the monad [M],
      which records the log lines emitted so far next to the result or the
      exception raised. *)

From Stdlib Require Import ZArith String Ascii List Decimal DecimalPos DecimalN Lia.
From stdpp Require Import base tactics option list strings gmap.

Local Open Scope string_scope.
Local Open Scope list_scope.

#[local] Arguments String.append !s1 s2 : simpl nomatch.

(** ** Values and exceptions *)

Unset Elimination Schemes.

Inductive pyval : Type :=
| VNone
| VBool (b : bool)
| VInt (n : Z)
| VStr (s : string)
| VList (l : list pyval)
| VDict (d : list (string * pyval))
| VObj (o_bool : bool) (o_str : string) (o_attrs : list (string * pyval)).

Set Elimination Schemes.

Inductive exn : Type :=
| AttributeError
| TypeError.

(** A fallible computation without effects: [inl e] raises [e]. *)
Definition except (A : Type) : Type := (exn + A)%type.

Definition mapM {A B : Type} (f : A -> except B) : list A -> except (list B) :=
  fix go (l : list A) : except (list B) :=
    match l with
    | [] => inr []
    | x :: xs =>
        match f x with
        | inl e => inl e
        | inr y => match go xs with
                   | inl e => inl e
                   | inr ys => inr (y :: ys)
                   end
        end
    end.

(** [d[key]] on an association list: the entry of the first pair with that key. *)
Fixpoint dict_lookup (key : string) (d : list (string * pyval)) : option pyval :=
  match d with
  | [] => None
  | (k, v) :: d' => if String.eqb k key then Some v else dict_lookup key d'
  end.

(** ** [json.dumps] with its default arguments

    ASCII-only output, a comma and a colon each followed by a space as
    separators, no [default] hook. *)

Definition dquote : ascii := "034"%char.
Definition backslash : ascii := "092"%char.

Definition hex_digit (n : N) : ascii :=
  match n with
  | 0 => "0" | 1 => "1" | 2 => "2" | 3 => "3" | 4 => "4" | 5 => "5" | 6 => "6"
  | 7 => "7" | 8 => "8" | 9 => "9" | 10 => "a" | 11 => "b" | 12 => "c"
  | 13 => "d" | 14 => "e" | _ => "f"
  end%N%char.

(** The format [{0:04x}] of [n], for [n < 0x10000]. *)
Definition hex4 (n : N) : string :=
  String (hex_digit (n / 4096 mod 16))
    (String (hex_digit (n / 256 mod 16))
       (String (hex_digit (n / 16 mod 16))
          (String (hex_digit (n mod 16)) ""))).

(** The replacement [py_encode_basestring_ascii] makes for one character:
    the regular expression [ESCAPE_ASCII] matches a backslash, a double quote
    and everything outside [' '..'~']; [ESCAPE_DCT] gives the short escapes
    and the [\u] form is used for the rest. The surrogate-pair branch needs a
    code point above 0xffff and is never taken on the modelled characters. *)
Definition escape_char (c : ascii) : string :=
  let n := N_of_ascii c in
  if (n =? 92)%N then String backslash (String backslash "")
  else if (n =? 34)%N then String backslash (String dquote "")
  else if ((32 <=? n) && (n <=? 126))%N then String c ""
  else if (n =? 8)%N then "\b"
  else if (n =? 12)%N then "\f"
  else if (n =? 10)%N then "\n"
  else if (n =? 13)%N then "\r"
  else if (n =? 9)%N then "\t"
  else "\u" +:+ hex4 n.

Fixpoint escape_string (s : string) : string :=
  match s with
  | "" => ""
  | String c s' => escape_char c +:+ escape_string s'
  end.

Definition encode_basestring_ascii (s : string) : string :=
  String dquote (escape_string s +:+ String dquote "").

Fixpoint uint_string (d : uint) : string :=
  match d with
  | Nil => ""
  | D0 d => String "0" (uint_string d)
  | D1 d => String "1" (uint_string d)
  | D2 d => String "2" (uint_string d)
  | D3 d => String "3" (uint_string d)
  | D4 d => String "4" (uint_string d)
  | D5 d => String "5" (uint_string d)
  | D6 d => String "6" (uint_string d)
  | D7 d => String "7" (uint_string d)
  | D8 d => String "8" (uint_string d)
  | D9 d => String "9" (uint_string d)
  end.

(** [int.__repr__]: decimal digits, a leading minus sign when negative. *)
Definition int_repr (n : Z) : string :=
  match n with
  | Z0 => "0"
  | Zpos p => uint_string (Pos.to_uint p)
  | Zneg p => String "-" (uint_string (Pos.to_uint p))
  end.

(** [JSONEncoder._iterencode]: an object that is none of the JSON types goes
    to [default], which raises [TypeError]. *)
Fixpoint iterencode (o : pyval) : except string :=
  match o with
  | VStr s => inr (encode_basestring_ascii s)
  | VNone => inr "null"
  | VBool true => inr "true"
  | VBool false => inr "false"
  | VInt n => inr (int_repr n)
  | VList l =>
      match mapM iterencode l with
      | inl e => inl e
      | inr items => inr ("[" +:+ String.concat ", " items +:+ "]")
      end
  | VDict d =>
      match mapM (fun kv : string * pyval =>
                    match iterencode (snd kv) with
                    | inl e => inl e
                    | inr s => inr (encode_basestring_ascii (fst kv) +:+ ": " +:+ s)
                    end) d with
      | inl e => inl e
      | inr items => inr ("{" +:+ String.concat ", " items +:+ "}")
      end
  | VObj _ _ _ => inl TypeError
  end.

Definition json_dumps (obj : pyval) : except string := iterencode obj.

(** ** [json.loads]

    The decoder of the [json] module on the fragment without floats: a text
    with a fraction, an exponent, [NaN] or [Infinity] is outside the
    embedding and gets [None], as does a [\u] escape above 0xff; every other
    [None] is a [JSONDecodeError]. *)

Definition is_ws (c : ascii) : bool :=
  match c with
  | " " | "009" | "010" | "013" => true
  | _ => false
  end%char.

(** The regular expression [WHITESPACE], matched at the head of [s]. *)
Fixpoint skip_ws (s : string) : string :=
  match s with
  | String c r => if is_ws c then skip_ws r else s
  | "" => ""
  end.

Definition hex_value (c : ascii) : option N :=
  let n := N_of_ascii c in
  if ((48 <=? n) && (n <=? 57))%N then Some (n - 48)%N
  else if ((97 <=? n) && (n <=? 102))%N then Some (n - 87)%N
  else if ((65 <=? n) && (n <=? 70))%N then Some (n - 55)%N
  else None.

Definition decode_uXXXX (h1 h2 h3 h4 : ascii) : option N :=
  match hex_value h1, hex_value h2, hex_value h3, hex_value h4 with
  | Some a, Some b, Some c, Some d => Some (((a * 16 + b) * 16 + c) * 16 + d)%N
  | _, _, _, _ => None
  end.

(** The table [BACKSLASH] of the decoder. *)
Definition unescape (c : ascii) : option ascii :=
  let n := N_of_ascii c in
  if (n =? 34)%N then Some dquote
  else if (n =? 92)%N then Some backslash
  else match c with
       | "/" => Some "/"
       | "b" => Some "008"
       | "f" => Some "012"
       | "n" => Some "010"
       | "r" => Some "013"
       | "t" => Some "009"
       | _ => None
       end%char.

(** [scanstring] in strict mode, entered after the opening quote: the text of
    the string and what follows its closing quote. *)
Fixpoint scanstring (s : string) : option (string * string) :=
  match s with
  | "" => None
  | String c r =>
      let n := N_of_ascii c in
      if (n =? 34)%N then Some ("", r)
      else if (n =? 92)%N then
        match r with
        | String "u" (String h1 (String h2 (String h3 (String h4 r')))) =>
            match decode_uXXXX h1 h2 h3 h4 with
            | Some uni =>
                if (uni <? 256)%N then
                  match scanstring r' with
                  | Some (t, rest) => Some (String (ascii_of_N uni) t, rest)
                  | None => None
                  end
                else None
            | None => None
            end
        | String "u" _ => None
        | String e r' =>
            match unescape e with
            | Some c' =>
                match scanstring r' with
                | Some (t, rest) => Some (String c' t, rest)
                | None => None
                end
            | None => None
            end
        | "" => None
        end
      else if (n <? 32)%N then None
      else
        match scanstring r with
        | Some (t, rest) => Some (String c t, rest)
        | None => None
        end
  end.

Definition digit_cons (c : ascii) : option (uint -> uint) :=
  match c with
  | "0" => Some D0 | "1" => Some D1 | "2" => Some D2 | "3" => Some D3
  | "4" => Some D4 | "5" => Some D5 | "6" => Some D6 | "7" => Some D7
  | "8" => Some D8 | "9" => Some D9
  | _ => None
  end%char.

Definition is_digit (c : ascii) : bool :=
  match digit_cons c with Some _ => true | None => false end.

(** The longest run of decimal digits at the head of [s]. *)
Fixpoint scan_digits (s : string) : uint * string :=
  match s with
  | String c r =>
      match digit_cons c with
      | Some dc => let '(d, r') := scan_digits r in (dc d, r')
      | None => (Nil, s)
      end
  | "" => (Nil, "")
  end.

(** The integer group of [NUMBER_RE]: an optional minus sign, then either a
    single zero or a non-zero digit and all the digits after it. *)
Definition match_integer (s : string) : option (Z * string) :=
  let '(neg, s1) := match s with
                    | String "-" r => (true, r)
                    | _ => (false, s)
                    end in
  match s1 with
  | String "0" r => Some (0%Z, r)
  | String c _ =>
      if is_digit c then
        let '(d, r) := scan_digits s1 in
        Some (if neg then (- Z.of_uint d)%Z else Z.of_uint d, r)
      else None
  | "" => None
  end.

(** Whether the fraction group (a dot and a digit) or the exponent group (the
    letter e in either case, an optional sign and a digit) of [NUMBER_RE]
    matches at the head of [s]. *)
Definition float_tail (s : string) : bool :=
  match s with
  | String "." (String c _) => is_digit c
  | String ("e" | "E") (String ("-" | "+") (String c _)) => is_digit c
  | String ("e" | "E") (String c _) => is_digit c
  | _ => false
  end.

Definition match_number (s : string) : option (pyval * string) :=
  match match_integer s with
  | Some (n, r) => if float_tail r then None else Some (VInt n, r)
  | None => None
  end.

(** [d[key] = v] on an association list: an existing key keeps its place. *)
Fixpoint dict_set (key : string) (v : pyval) (d : list (string * pyval))
  : list (string * pyval) :=
  match d with
  | [] => [(key, v)]
  | (k, x) :: d' =>
      if String.eqb k key then (k, v) :: d' else (k, x) :: dict_set key v d'
  end.

(** [dict(pairs)]. *)
Definition dict_of_pairs (pairs : list (string * pyval)) : list (string * pyval) :=
  fold_left (fun d kv => dict_set (fst kv) (snd kv) d) pairs [].

(** [scan_once], [JSONArray] past the opening bracket and its first blanks,
    and [JSONObject] past the opening quote of a key. The recursion of the
    decoder is on the text; here it is bounded by [fuel], which [json_loads]
    sets from the length of the text. *)
Fixpoint scan_once (fuel : nat) (s : string) : option (pyval * string) :=
  match fuel with
  | O => None
  | S fuel =>
      match s with
      | String "034" r =>
          match scanstring r with
          | Some (t, r') => Some (VStr t, r')
          | None => None
          end
      | String "{" r =>
          match skip_ws r with
          | String "}" r' => Some (VDict [], r')
          | String "034" r' =>
              match parse_pairs fuel r' with
              | Some (pairs, r'') => Some (VDict (dict_of_pairs pairs), r'')
              | None => None
              end
          | _ => None
          end
      | String "[" r =>
          match skip_ws r with
          | String "]" r' => Some (VList [], r')
          | r' =>
              match parse_items fuel r' with
              | Some (values, r'') => Some (VList values, r'')
              | None => None
              end
          end
      | String "n" (String "u" (String "l" (String "l" r))) => Some (VNone, r)
      | String "t" (String "r" (String "u" (String "e" r))) => Some (VBool true, r)
      | String "f" (String "a" (String "l" (String "s" (String "e" r)))) =>
          Some (VBool false, r)
      | _ => match_number s
      end
  end
with parse_items (fuel : nat) (s : string) : option (list pyval * string) :=
  match fuel with
  | O => None
  | S fuel =>
      match scan_once fuel s with
      | Some (value, r) =>
          match skip_ws r with
          | String "]" r' => Some ([value], r')
          | String "," r' =>
              match parse_items fuel (skip_ws r') with
              | Some (values, r'') => Some (value :: values, r'')
              | None => None
              end
          | _ => None
          end
      | None => None
      end
  end
with parse_pairs (fuel : nat) (s : string)
  : option (list (string * pyval) * string) :=
  match fuel with
  | O => None
  | S fuel =>
      match scanstring s with
      | Some (key, r) =>
          match skip_ws r with
          | String ":" r1 =>
              match scan_once fuel (skip_ws r1) with
              | Some (value, r2) =>
                  match skip_ws r2 with
                  | String "}" r3 => Some ([(key, value)], r3)
                  | String "," r3 =>
                      match skip_ws r3 with
                      | String "034" r4 =>
                          match parse_pairs fuel r4 with
                          | Some (pairs, r5) => Some ((key, value) :: pairs, r5)
                          | None => None
                          end
                      | _ => None
                      end
                  | _ => None
                  end
              | None => None
              end
          | _ => None
          end
      | None => None
      end
  end.

(** [JSONDecoder.decode]: one value between blanks, and nothing after it. *)
Definition json_loads (s : string) : option pyval :=
  match scan_once (S (String.length s)) (skip_ws s) with
  | Some (obj, r) =>
      match skip_ws r with
      | "" => Some obj
      | _ => None
      end
  | None => None
  end.

(** ** The Python operations the handler uses *)

(** [bool(v)], the test of [if v]. *)
Definition truthy (v : pyval) : bool :=
  match v with
  | VNone => false
  | VBool b => b
  | VInt n => negb (n =? 0)%Z
  | VStr s => negb (String.eqb s "")
  | VList l => match l with [] => false | _ :: _ => true end
  | VDict d => match d with [] => false | _ :: _ => true end
  | VObj b _ _ => b
  end.

(** [obj.name] for the attribute the handler reads: an object gives the
    value it holds under [name], and the values of the built-in types have no
    attribute of that name. *)
Definition getattr (obj : pyval) (name : string) : except pyval :=
  match obj with
  | VObj _ _ attrs =>
      match dict_lookup name attrs with
      | Some v => inr v
      | None => inl AttributeError
      end
  | _ => inl AttributeError
  end.

(** [obj.get(key, default)]: the method of [dict]; the other built-in types
    have no attribute [get], and a data attribute of that name is not
    callable. *)
Definition call_get (obj : pyval) (key : string) (default : pyval) : except pyval :=
  match obj with
  | VDict d =>
      inr (match dict_lookup key d with Some v => v | None => default end)
  | VObj _ _ attrs =>
      match dict_lookup "get" attrs with
      | Some _ => inl TypeError
      | None => inl AttributeError
      end
  | _ => inl AttributeError
  end.

(** [os.environ.get(key, default)]. *)
Definition environ_get (environ : gmap string string) (key default : string) : string :=
  match environ !! key with
  | Some v => v
  | None => default
  end.

(** ** Logging and the handler's monad *)

Inductive loglevel : Type := DEBUG | INFO | WARNING | ERROR | CRITICAL.

Definition levelno (l : loglevel) : Z :=
  match l with
  | DEBUG => 10 | INFO => 20 | WARNING => 30 | ERROR => 40 | CRITICAL => 50
  end.

Record log_record : Type := LogRecord { levelname : loglevel; msg : string }.

(** The log lines emitted, oldest first, and the value returned or the
    exception raised. *)
Definition M (A : Type) : Type := (list log_record * except A)%type.

Definition ret {A : Type} (x : A) : M A := ([], inr x).

Definition bind {A B : Type} (m : M A) (k : A -> M B) : M B :=
  match m with
  | (logs, inl e) => (logs, inl e)
  | (logs, inr x) => let '(logs', r) := k x in (logs ++ logs', r)
  end.

Definition lift {A : Type} (r : except A) : M A := ([], r).

Declare Scope handler_scope.
Delimit Scope handler_scope with handler.
Notation "x <- m ;; k" := (bind m (fun x => k))
  (at level 100, m at next level, right associativity) : handler_scope.
Notation "m ;; k" := (bind m (fun _ => k))
  (at level 100, right associativity) : handler_scope.

(** Lines 5 and 6 of the module: the root logger, set to [INFO] on import. *)
Definition logger_level : loglevel := INFO.

(** [logger.info(message)]: a record is handed on when [INFO] is enabled. *)
Definition logger_info (message : string) : M unit :=
  if (levelno logger_level <=? levelno INFO)%Z
  then ([LogRecord INFO message], inr tt)
  else ([], inr tt).

Section Handler.

(** [repr] on lists and dictionaries, which [str] falls back to; its text
    plays no part in what is proved and is left open. *)
Variable py_repr : pyval -> string.

(** What an f-string puts in place of [{v}]: [format(v, '')]. *)
Definition py_format (v : pyval) : string :=
  match v with
  | VStr s => s
  | VNone => "None"
  | VBool true => "True"
  | VBool false => "False"
  | VInt n => int_repr n
  | VList _ | VDict _ => py_repr v
  | VObj _ s _ => s
  end.

(** The dictionary passed to the inner [json.dumps] (lines 31 to 36). *)
Definition body_dict (name : pyval) (stage log_level : string)
           (function_version : pyval) : pyval :=
  VDict [("message", VStr ("Hello, " +:+ py_format name +:+ "!"));
         ("stage", VStr stage);
         ("log_level", VStr log_level);
         ("function_version", function_version)].

Local Open Scope handler_scope.

Definition lambda_handler (environ : gmap string string)
           (event context : pyval) : M pyval :=
  event_json <- lift (json_dumps event) ;;
  logger_info ("Received event: " +:+ event_json) ;;
  let log_level := environ_get environ "LOG_LEVEL" "INFO" in
  let stage := environ_get environ "STAGE" "development" in
  name <- lift (call_get event "name" (VStr "World")) ;;
  function_version <-
    (if truthy context
     then lift (getattr context "function_version")
     else ret (VStr "unknown")) ;;
  body <- lift (json_dumps (body_dict name stage log_level function_version)) ;;
  let response := VDict [("statusCode", VInt 200); ("body", VStr body)] in
  response_json <- lift (json_dumps response) ;;
  logger_info ("Returning response: " +:+ response_json) ;;
  ret response.

End Handler.

(** ** What the claims observe of an invocation *)

(** [v[key]], for a dictionary [v]. *)
Definition field (key : string) (v : pyval) : option pyval :=
  match v with
  | VDict d => dict_lookup key d
  | _ => None
  end.

(** The body of a response, parsed as JSON. *)
Definition response_body (response : pyval) : option pyval :=
  match field "body" response with
  | Some (VStr s) => json_loads s
  | _ => None
  end.

(** A field of the parsed body of a response. *)
Definition body_field (key : string) (response : pyval) : option pyval :=
  match response_body response with
  | Some body => field key body
  | None => None
  end.

(** Line 35: the value stored under [function_version]. *)
Definition context_version (context : pyval) : except pyval :=
  if truthy context then getattr context "function_version"
  else inr (VStr "unknown").

(** The record of line 21. *)
Definition received (event_json : string) : log_record :=
  LogRecord INFO ("Received event: " +:+ event_json).

(** The record of line 40. *)
Definition returning (response_json : string) : log_record :=
  LogRecord INFO ("Returning response: " +:+ response_json).

(** The dictionary of lines 28 to 38, once its body is serialized. *)
Definition make_response (body : string) : pyval :=
  VDict [("statusCode", VInt 200); ("body", VStr body)].

(** ** What [json.loads] returns on a text of [json.dumps] *)

(** [json.loads(json.dumps(v))]: a dictionary is rebuilt from its pairs. *)
Fixpoint json_norm (v : pyval) : pyval :=
  match v with
  | VList l => VList (map json_norm l)
  | VDict d => VDict (dict_of_pairs (map (fun kv => (fst kv, json_norm (snd kv))) d))
  | _ => v
  end.

(** The keys of an association list are pairwise distinct, as the keys of a
    Python dictionary are. *)
Fixpoint distinct_keys (d : list (string * pyval)) : bool :=
  match d with
  | [] => true
  | (k, _) :: d' =>
      negb (existsb (fun kv => String.eqb (fst kv) k) d') && distinct_keys d'
  end.

(** Every dictionary and every attribute table inside [v] has distinct keys. *)
Fixpoint py_wf (v : pyval) : bool :=
  match v with
  | VList l => forallb py_wf l
  | VDict d => distinct_keys d && forallb (fun kv => py_wf (snd kv)) d
  | VObj _ _ attrs => distinct_keys attrs && forallb (fun kv => py_wf (snd kv)) attrs
  | _ => true
  end.

(** ** Definitions used in the proofs *)

(** The fuel [scan_once] needs on the text of [v]. *)
Fixpoint fuel_of (v : pyval) : nat :=
  match v with
  | VList l => S (fold_right (fun x n => S (Nat.max (fuel_of x) n)) 0 l)
  | VDict d => S (fold_right (fun kv n => S (Nat.max (fuel_of (snd kv)) n)) 0 d)
  | _ => 1
  end.

(** A text that cannot continue a number. *)
Definition number_end (s : string) : bool :=
  match s with
  | "" => true
  | String c _ =>
      match c with
      | "," | "]" | "}" | " " | "009" | "010" | "013" => true
      | _ => false
      end%char
  end.

(** The characters a JSON value can start with in the output of [iterencode]. *)
Definition value_start (c : ascii) : bool :=
  is_digit c ||
  match c with
  | "034" | "-" | "[" | "{" | "n" | "t" | "f" => true
  | _ => false
  end%char.

(** [s] starts with such a character. *)
Definition starts_value (s : string) : bool :=
  match s with
  | String c _ => value_start c
  | "" => false
  end.

(** The first digit of [d] is not zero. *)
Definition nonzero_head (d : uint) : bool :=
  match d with
  | Nil | D0 _ => false
  | _ => true
  end.

(** The characters the text of an integer can start with. *)
Definition int_head (c : ascii) : bool :=
  is_digit c || match c with "-"%char => true | _ => false end.

(** The property proved of every value by induction: the decoder, given
    enough fuel, reads the text of [v] back and stops right after it. *)
Definition reads_back (v : pyval) : Prop :=
  forall s, iterencode v = inr s ->
  forall fuel rest, fuel_of v <= fuel -> number_end rest = true ->
  scan_once fuel (s +:+ rest) = Some (json_norm v, rest).

(** The text [iterencode] writes for one entry of a dictionary. *)
Definition item_text (kv : string * pyval) : except string :=
  match iterencode (snd kv) with
  | inl e => inl e
  | inr s => inr (encode_basestring_ascii (fst kv) +:+ ": " +:+ s)
  end.

(** ** Further notions about the handler's inputs and outputs *)


(** A printable ASCII character, from the space to the tilde. *)
Definition printable (c : ascii) : bool :=
  ((32 <=? N_of_ascii c) && (N_of_ascii c <=? 126))%N.

(** Every character of [s] is printable ASCII. *)
Fixpoint ascii_only (s : string) : bool :=
  match s with
  | "" => true
  | String c s' => printable c && ascii_only s'
  end.


(** ** Values for the examples *)

(** A [repr] for the examples; none of them formats a list or a dictionary. *)
Definition sample_repr (v : pyval) : string := "<repr>".

(** A context as the platform passes it: a truthy object with attributes. *)
Definition sample_context : pyval :=
  VObj true "<LambdaContext>"
       [("function_name", VStr "greeter"); ("function_version", VStr "7")].

(** An object [json.dumps] does not know. *)
Definition sample_object : pyval := VObj true "<object>" [].

(** * Proofs *)

(** ** Induction on values *)

Section PyvalInd.

Variable P : pyval -> Prop.
Hypothesis HNone : P VNone.
Hypothesis HBool : forall b, P (VBool b).
Hypothesis HInt : forall n, P (VInt n).
Hypothesis HStr : forall s, P (VStr s).
Hypothesis HList : forall l, Forall P l -> P (VList l).
Hypothesis HDict : forall d, Forall (fun kv => P (snd kv)) d -> P (VDict d).
Hypothesis HObj : forall b s attrs,
    Forall (fun kv => P (snd kv)) attrs -> P (VObj b s attrs).

Fixpoint pyval_ind (v : pyval) : P v :=
  match v with
  | VNone => HNone
  | VBool b => HBool b
  | VInt n => HInt n
  | VStr s => HStr s
  | VList l =>
      HList l ((fix all (l : list pyval) : Forall P l :=
                  match l return Forall P l with
                  | [] => @Stdlib.Lists.List.Forall_nil _ P
                  | x :: xs =>
                      @Stdlib.Lists.List.Forall_cons _ P x xs (pyval_ind x) (all xs)
                  end) l)
  | VDict d =>
      HDict d ((fix all (d : list (string * pyval))
                 : Forall (fun kv => P (snd kv)) d :=
                  match d return Forall (fun kv => P (snd kv)) d with
                  | [] => @Stdlib.Lists.List.Forall_nil _ _
                  | kv :: d' =>
                      @Stdlib.Lists.List.Forall_cons _ (fun kv => P (snd kv)) kv d'
                        (pyval_ind (snd kv)) (all d')
                  end) d)
  | VObj b s attrs =>
      HObj b s attrs
        ((fix all (d : list (string * pyval))
           : Forall (fun kv => P (snd kv)) d :=
            match d return Forall (fun kv => P (snd kv)) d with
            | [] => @Stdlib.Lists.List.Forall_nil _ _
            | kv :: d' =>
                @Stdlib.Lists.List.Forall_cons _ (fun kv => P (snd kv)) kv d'
                        (pyval_ind (snd kv)) (all d')
            end) attrs)
  end.

End PyvalInd.

(** ** Strings *)

Lemma append_assoc (a b c : string) : (a +:+ b) +:+ c = a +:+ (b +:+ c).
Proof. induction a as [|x a IH]; simpl; [reflexivity | now rewrite IH]. Qed.

Lemma append_nil_r (a : string) : a +:+ "" = a.
Proof. induction a as [|x a IH]; simpl; [reflexivity | now rewrite IH]. Qed.

Lemma length_append (a b : string) :
  String.length (a +:+ b) = String.length a + String.length b.
Proof. induction a as [|x a IH]; simpl; [reflexivity | now rewrite IH]. Qed.

(** ** Strings through the encoder and the decoder *)

Lemma scanstring_escape_char (c : ascii) (t : string) :
  scanstring (escape_char c +:+ t) =
  match scanstring t with
  | Some (u, r) => Some (String c u, r)
  | None => None
  end.
Proof.
  destruct c as [[] [] [] [] [] [] [] []]; reflexivity.
Qed.

Lemma scanstring_escape_string (s rest : string) :
  scanstring (escape_string s +:+ String dquote rest) = Some (s, rest).
Proof.
  induction s as [|c s IH]; [reflexivity|].
  cbn [escape_string]. rewrite append_assoc, scanstring_escape_char, IH.
  reflexivity.
Qed.

(** ** Integers through the encoder and the decoder *)

Lemma nzhead_not_D0 (u u' : uint) : nzhead u <> D0 u'.
Proof. induction u; simpl; congruence. Qed.

Lemma to_uint_unorm (p : positive) : unorm (Pos.to_uint p) = Pos.to_uint p.
Proof.
  rewrite <- DecimalPos.Unsigned.to_of, DecimalPos.Unsigned.of_to.
  reflexivity.
Qed.

Lemma to_uint_head (p : positive) : nonzero_head (Pos.to_uint p) = true.
Proof.
  pose proof (to_uint_unorm p) as Hn.
  pose proof (DecimalPos.Unsigned.to_uint_nonnil p) as Hnil.
  pose proof (DecimalPos.Unsigned.to_uint_nonzero p) as Hz.
  destruct (Pos.to_uint p) as [|u|u|u|u|u|u|u|u|u|u]; try reflexivity.
  - congruence.
  - exfalso. rewrite DecimalFacts.unorm_D0 in Hn. unfold unorm in Hn.
    destruct (nzhead u) eqn:E; try congruence.
    exact (nzhead_not_D0 u _ E).
Qed.

Lemma number_end_not_digit (c : ascii) (r : string) :
  number_end (String c r) = true -> digit_cons c = None.
Proof.
  destruct c as [[] [] [] [] [] [] [] []]; simpl; intros H;
    solve [reflexivity | discriminate H].
Qed.

Lemma number_end_float_tail (rest : string) :
  number_end rest = true -> float_tail rest = false.
Proof.
  destruct rest as [|c r]; [reflexivity|].
  destruct c as [[] [] [] [] [] [] [] []]; simpl; intros H;
    solve [reflexivity | discriminate H].
Qed.

Lemma scan_digits_uint (d : uint) (rest : string) :
  number_end rest = true -> scan_digits (uint_string d +:+ rest) = (d, rest).
Proof.
  intros Hend.
  induction d; cbn [uint_string String.append scan_digits digit_cons];
    try (rewrite IHd; reflexivity).
  destruct rest as [|c r]; [reflexivity|].
  cbn [scan_digits]. rewrite (number_end_not_digit c r Hend). reflexivity.
Qed.

Lemma match_integer_uint (d : uint) (rest : string) :
  nonzero_head d = true -> number_end rest = true ->
  match_integer (uint_string d +:+ rest) = Some (Z.of_uint d, rest) /\
  match_integer (String "-" (uint_string d +:+ rest)) = Some ((- Z.of_uint d)%Z, rest).
Proof.
  intros Hd Hend.
  destruct d; try discriminate Hd;
    cbn [uint_string String.append];
    unfold match_integer; cbn [is_digit digit_cons scan_digits];
    rewrite (scan_digits_uint _ _ Hend); split; reflexivity.
Qed.

Lemma Z_of_uint_to_uint (p : positive) : Z.of_uint (Pos.to_uint p) = Zpos p.
Proof.
  unfold Z.of_uint. rewrite DecimalPos.Unsigned.of_to. reflexivity.
Qed.

Lemma match_number_int (n : Z) (rest : string) :
  number_end rest = true ->
  match_number (int_repr n +:+ rest) = Some (VInt n, rest).
Proof.
  intros Hend. unfold match_number.
  destruct n as [|p|p]; cbn [int_repr String.append].
  - cbn. now rewrite (number_end_float_tail _ Hend).
  - destruct (match_integer_uint _ rest (to_uint_head p) Hend) as [-> _].
    now rewrite (number_end_float_tail _ Hend), Z_of_uint_to_uint.
  - destruct (match_integer_uint _ rest (to_uint_head p) Hend) as [_ ->].
    now rewrite (number_end_float_tail _ Hend), Z_of_uint_to_uint.
Qed.

Lemma uint_string_head (d : uint) :
  nonzero_head d = true ->
  exists c r, uint_string d = String c r /\ int_head c = true.
Proof.
  destruct d; try discriminate; intros _; cbn [uint_string]; eauto.
Qed.

Lemma int_repr_head (n : Z) :
  exists c r, int_repr n = String c r /\ int_head c = true.
Proof.
  destruct n as [|p|p]; cbn [int_repr].
  - eauto.
  - apply uint_string_head, to_uint_head.
  - eauto.
Qed.

Lemma scan_once_int_head (fuel : nat) (c : ascii) (r : string) :
  int_head c = true ->
  scan_once (S fuel) (String c r) = match_number (String c r).
Proof.
  destruct c as [[] [] [] [] [] [] [] []]; intros H;
    solve [reflexivity | discriminate H].
Qed.

Lemma scan_once_int (fuel : nat) (n : Z) (rest : string) :
  number_end rest = true ->
  scan_once (S fuel) (int_repr n +:+ rest) = Some (VInt n, rest).
Proof.
  intros Hend. rewrite <- (match_number_int n rest Hend).
  destruct (int_repr_head n) as (c & r & -> & Hc).
  cbn [String.append]. now apply scan_once_int_head.
Qed.

(** ** Lists and dictionaries through the encoder and the decoder *)

Lemma int_head_value_start (c : ascii) : int_head c = true -> value_start c = true.
Proof.
  destruct c as [[] [] [] [] [] [] [] []]; intros H;
    solve [reflexivity | discriminate H].
Qed.

Lemma skip_ws_value (s : string) : starts_value s = true -> skip_ws s = s.
Proof.
  destruct s as [|c r]; [reflexivity|].
  destruct c as [[] [] [] [] [] [] [] []]; intros H;
    solve [reflexivity | discriminate H].
Qed.

Lemma starts_value_append (a b : string) :
  starts_value a = true -> starts_value (a +:+ b) = true.
Proof. destruct a; [discriminate | intros H; exact H]. Qed.

Lemma number_end_value_start (c : ascii) (r : string) :
  number_end (String c r) = true -> value_start c = false.
Proof.
  destruct c as [[] [] [] [] [] [] [] []]; intros H;
    solve [reflexivity | discriminate H].
Qed.

Lemma iterencode_starts_value (v : pyval) (s : string) :
  iterencode v = inr s -> starts_value s = true.
Proof.
  destruct v as [|[]|n|t|l|d|b t attrs]; cbn [iterencode]; intros H;
    try (injection H as <-; reflexivity).
  - injection H as <-. destruct (int_repr_head n) as (c & r & -> & Hc).
    now apply int_head_value_start.
  - destruct (mapM iterencode l); [discriminate|]. injection H as <-. reflexivity.
  - destruct (mapM _ d); [discriminate|]. injection H as <-. reflexivity.
  - discriminate.
Qed.

Lemma scan_once_string (fuel : nat) (t rest : string) :
  scan_once (S fuel) (encode_basestring_ascii t +:+ rest) = Some (VStr t, rest).
Proof.
  unfold encode_basestring_ascii. cbn [String.append].
  rewrite append_assoc. cbn [String.append].
  change (scan_once (S fuel) (String dquote ?r))
    with (match scanstring r with
          | Some (u, r') => Some (VStr u, r')
          | None => None
          end).
  now rewrite scanstring_escape_string.
Qed.

Lemma scan_once_list (fuel : nat) (r : string) :
  starts_value r = true ->
  scan_once (S fuel) (String "[" r) =
  match parse_items fuel r with
  | Some (values, r') => Some (VList values, r')
  | None => None
  end.
Proof.
  destruct r as [|c r]; [discriminate|].
  destruct c as [[] [] [] [] [] [] [] []]; intros H;
    solve [reflexivity | discriminate H].
Qed.

Lemma parse_items_last (fuel : nat) (s : string) (v : pyval) (rest : string) :
  scan_once fuel s = Some (v, String "]" rest) ->
  parse_items (S fuel) s = Some ([v], rest).
Proof. intros H. cbn [parse_items]. rewrite H. reflexivity. Qed.

Lemma parse_items_more (fuel : nat) (s : string) (v : pyval) (r : string)
      (vs : list pyval) (rest : string) :
  scan_once fuel s = Some (v, String "," (String " " r)) ->
  starts_value r = true ->
  parse_items fuel r = Some (vs, rest) ->
  parse_items (S fuel) s = Some (v :: vs, rest).
Proof.
  intros H Hr Hvs. cbn [parse_items]. rewrite H.
  cbn [skip_ws is_ws]. rewrite (skip_ws_value r Hr), Hvs. reflexivity.
Qed.

Lemma parse_pairs_key (fuel : nat) (k s : string) :
  starts_value s = true ->
  parse_pairs (S fuel) (escape_string k +:+ String dquote (String ":" (String " " s))) =
  match scan_once fuel s with
  | Some (value, r2) =>
      match skip_ws r2 with
      | String "}" r3 => Some ([(k, value)], r3)
      | String "," r3 =>
          match skip_ws r3 with
          | String "034" r4 =>
              match parse_pairs fuel r4 with
              | Some (pairs, r5) => Some ((k, value) :: pairs, r5)
              | None => None
              end
          | _ => None
          end
      | _ => None
      end
  | None => None
  end.
Proof.
  intros Hs. cbn [parse_pairs]. rewrite scanstring_escape_string.
  cbn [skip_ws is_ws]. rewrite (skip_ws_value s Hs). reflexivity.
Qed.

Lemma parse_pairs_last (fuel : nat) (k s : string) (v : pyval) (rest : string) :
  starts_value s = true ->
  scan_once fuel s = Some (v, String "}" rest) ->
  parse_pairs (S fuel) (escape_string k +:+ String dquote (String ":" (String " " s))) =
  Some ([(k, v)], rest).
Proof. intros Hs H. rewrite (parse_pairs_key _ _ _ Hs), H. reflexivity. Qed.

Lemma parse_pairs_more (fuel : nat) (k s : string) (v : pyval) (r : string)
      (ps : list (string * pyval)) (rest : string) :
  starts_value s = true ->
  scan_once fuel s = Some (v, String "," (String " " (String dquote r))) ->
  parse_pairs fuel r = Some (ps, rest) ->
  parse_pairs (S fuel) (escape_string k +:+ String dquote (String ":" (String " " s))) =
  Some ((k, v) :: ps, rest).
Proof.
  intros Hs H Hps. rewrite (parse_pairs_key _ _ _ Hs), H.
  cbn [skip_ws is_ws dquote]. rewrite Hps. reflexivity.
Qed.

Ltac assoc_right :=
  repeat first [rewrite append_assoc | progress cbn [String.append]].

Lemma concat_cons2 (x y : string) (l : list string) :
  String.concat ", " (x :: y :: l) = x +:+ ", " +:+ String.concat ", " (y :: l).
Proof. reflexivity. Qed.

Lemma concat_starts_value (x : string) (l : list string) (rest : string) :
  starts_value x = true ->
  starts_value (String.concat ", " (x :: l) +:+ rest) = true.
Proof.
  intros Hx. destruct l as [|y l].
  - now apply starts_value_append.
  - rewrite concat_cons2. now rewrite append_assoc; apply starts_value_append.
Qed.

Lemma items_read_back (l : list pyval) :
  Forall reads_back l ->
  forall items, mapM iterencode l = inr items -> l <> [] ->
  forall fuel rest,
    fold_right (fun x n => S (Nat.max (fuel_of x) n)) 0 l <= fuel ->
    parse_items fuel (String.concat ", " items +:+ String "]" rest) =
    Some (map json_norm l, rest).
Proof.
  induction 1 as [|x xs Hx Hxs IH]; intros items Hitems Hne fuel rest Hfuel;
    [congruence|].
  cbn [mapM] in Hitems.
  destruct (iterencode x) as [|sx] eqn:Ex; [discriminate|].
  destruct (mapM iterencode xs) as [|items'] eqn:Exs; [discriminate|].
  injection Hitems as <-.
  cbn [fold_right] in Hfuel.
  destruct fuel as [|fuel]; [lia|].
  destruct xs as [|y ys].
  - cbn [mapM] in Exs. injection Exs as <-.
    cbn [String.concat map]. apply parse_items_last.
    apply (Hx sx Ex); [lia | reflexivity].
  - assert (Hitems' : exists sy items'', items' = sy :: items'' /\ starts_value sy = true).
    { cbn [mapM] in Exs.
      destruct (iterencode y) as [|sy] eqn:Ey; [discriminate|].
      destruct (mapM iterencode ys); [discriminate|].
      injection Exs as <-. eauto using iterencode_starts_value. }
    destruct Hitems' as (sy & items'' & -> & Hsy).
    rewrite concat_cons2, append_assoc. cbn [String.append].
    change (map json_norm (x :: y :: ys))
      with (json_norm x :: map json_norm (y :: ys)).
    eapply parse_items_more.
    + apply (Hx sx Ex); [lia | reflexivity].
    + now apply concat_starts_value.
    + apply IH; [reflexivity | congruence | lia].
Qed.

Lemma pairs_read_back (d : list (string * pyval)) :
  Forall (fun kv => reads_back (snd kv)) d ->
  forall items, mapM item_text d = inr items -> d <> [] ->
  forall fuel rest,
    fold_right (fun kv n => S (Nat.max (fuel_of (snd kv)) n)) 0 d <= fuel ->
    exists r,
      String.concat ", " items +:+ String "}" rest = String dquote r /\
      parse_pairs fuel r =
      Some (map (fun kv => (fst kv, json_norm (snd kv))) d, rest).
Proof.
  induction 1 as [|[k x] xs Hx Hxs IH]; intros items Hitems Hne fuel rest Hfuel;
    [congruence|].
  cbn [mapM] in Hitems. unfold item_text at 1 in Hitems. cbn [fst snd] in Hitems, Hx.
  destruct (iterencode x) as [|sx] eqn:Ex; [discriminate|].
  destruct (mapM item_text xs) as [|items'] eqn:Exs; [discriminate|].
  injection Hitems as <-.
  cbn [fold_right snd] in Hfuel.
  destruct fuel as [|fuel]; [lia|].
  pose proof (iterencode_starts_value _ _ Ex) as Hsx.
  unfold encode_basestring_ascii. cbn [map fst snd].
  destruct xs as [|y ys].
  - cbn [mapM] in Exs. injection Exs as <-.
    cbn [String.concat]. assoc_right.
    eexists; split; [reflexivity|].
    apply parse_pairs_last; [now apply starts_value_append|].
    apply (Hx sx Ex); [lia | reflexivity].
  - destruct (IH items' eq_refl ltac:(congruence) fuel rest ltac:(lia))
      as (r & Hr & Hparse).
    assert (Hcons : exists z zs, items' = z :: zs).
    { cbn [mapM] in Exs. destruct (item_text y); [discriminate|].
      destruct (mapM item_text ys); [discriminate|]. injection Exs as <-. eauto. }
    destruct Hcons as (z & zs & ->).
    rewrite concat_cons2. assoc_right. rewrite Hr.
    eexists; split; [reflexivity|].
    eapply parse_pairs_more; [now apply starts_value_append | | exact Hparse].
    apply (Hx sx Ex); [lia | reflexivity].
Qed.

Lemma scan_once_dict (fuel : nat) (r : string) :
  scan_once (S fuel) (String "{" (String dquote r)) =
  match parse_pairs fuel r with
  | Some (pairs, r') => Some (VDict (dict_of_pairs pairs), r')
  | None => None
  end.
Proof. reflexivity. Qed.

Lemma reads_back_all (v : pyval) : reads_back v.
Proof.
  induction v as [|b|n|t|l IH|d IH|b t attrs IH] using pyval_ind;
    intros s Hs fuel rest Hfuel Hend; cbn [iterencode] in Hs.
  - injection Hs as <-. destruct fuel; [cbn in Hfuel; lia | reflexivity].
  - destruct fuel; [cbn in Hfuel; lia|].
    destruct b; injection Hs as <-; reflexivity.
  - injection Hs as <-. destruct fuel; [cbn in Hfuel; lia|].
    now apply scan_once_int.
  - injection Hs as <-. destruct fuel; [cbn in Hfuel; lia|].
    apply scan_once_string.
  - destruct (mapM iterencode l) as [|items] eqn:El; [discriminate|].
    injection Hs as <-. cbn [fuel_of] in Hfuel.
    destruct fuel as [|fuel]; [lia|].
    destruct l as [|x xs].
    + cbn [mapM] in El. injection El as <-. reflexivity.
    + cbn [String.append]. rewrite append_assoc. cbn [String.append].
      rewrite scan_once_list.
      * rewrite (items_read_back _ IH items El ltac:(congruence) fuel rest
                   ltac:(lia)).
        reflexivity.
      * cbn [mapM] in El.
        destruct (iterencode x) as [|sx] eqn:Ex; [discriminate|].
        destruct (mapM iterencode xs); [discriminate|]. injection El as <-.
        apply concat_starts_value. eauto using iterencode_starts_value.
  - change (mapM _ d) with (mapM item_text d) in Hs.
    destruct (mapM item_text d) as [|items] eqn:Ed; [discriminate|].
    injection Hs as <-. cbn [fuel_of] in Hfuel.
    destruct fuel as [|fuel]; [lia|].
    destruct d as [|kv d'].
    + cbn [mapM] in Ed. injection Ed as <-. reflexivity.
    + cbn [String.append]. rewrite append_assoc. cbn [String.append].
      destruct (pairs_read_back _ IH items Ed ltac:(congruence) fuel rest
                  ltac:(lia)) as (r & -> & Hparse).
      rewrite scan_once_dict, Hparse. reflexivity.
  - discriminate.
Qed.

(** ** The fuel set by [json_loads] is enough *)

Lemma mapM_nil_inv {A B : Type} (f : A -> except B) (l : list A) :
  mapM f l = inr [] -> l = [].
Proof.
  destruct l as [|x xs]; [reflexivity|]. cbn [mapM].
  destruct (f x); [discriminate|]. destruct (mapM f xs); discriminate.
Qed.

Lemma concat_length_cons (x y : string) (l : list string) :
  String.length (String.concat ", " (x :: y :: l)) =
  String.length x + 2 + String.length (String.concat ", " (y :: l)).
Proof. rewrite concat_cons2, !length_append. cbn [String.length]. lia. Qed.

Lemma fuel_of_items {A : Type} (text : A -> except string) (need : A -> nat)
      (l : list A) :
  Forall (fun x => forall s, text x = inr s -> need x <= String.length s) l ->
  forall items, mapM text l = inr items ->
  fold_right (fun x n => S (Nat.max (need x) n)) 0 l <=
  S (String.length (String.concat ", " items)).
Proof.
  induction 1 as [|x xs Hx Hxs IH]; intros items Hitems; cbn [fold_right]; [lia|].
  cbn [mapM] in Hitems.
  destruct (text x) as [|sx] eqn:Ex; [discriminate|].
  destruct (mapM text xs) as [|items'] eqn:Exs; [discriminate|].
  injection Hitems as <-.
  specialize (Hx sx eq_refl). specialize (IH items' eq_refl).
  destruct items' as [|sy items''].
  - apply mapM_nil_inv in Exs. subst xs. cbn [fold_right String.concat]. lia.
  - rewrite concat_length_cons. lia.
Qed.

Lemma fuel_of_length (v : pyval) :
  forall s, iterencode v = inr s -> fuel_of v <= String.length s.
Proof.
  induction v as [|b|n|t|l IH|d IH|b t attrs IH] using pyval_ind;
    intros s Hs; pose proof (iterencode_starts_value _ _ Hs) as Hstart;
    cbn [iterencode] in Hs.
  1-4: destruct s; [discriminate Hstart | cbn; lia].
  - destruct (mapM iterencode l) as [|items] eqn:El; [discriminate|].
    injection Hs as <-.
    pose proof (fuel_of_items iterencode fuel_of l IH items El).
    cbn [fuel_of String.append String.length]. rewrite length_append.
    cbn [String.length]. lia.
  - change (mapM _ d) with (mapM item_text d) in Hs.
    destruct (mapM item_text d) as [|items] eqn:Ed; [discriminate|].
    injection Hs as <-.
    assert (Hitem : Forall (fun kv => forall s, item_text kv = inr s ->
                                      fuel_of (snd kv) <= String.length s) d).
    { eapply Forall_impl; [exact IH|]. intros [k x] Hx s. unfold item_text.
      cbn [fst snd] in *. destruct (iterencode x) as [|sx]; [discriminate|].
      intros [= <-]. specialize (Hx sx eq_refl).
      unfold encode_basestring_ascii. cbn [String.length String.append].
      rewrite !length_append. cbn [String.length]. lia. }
    pose proof (fuel_of_items item_text (fun kv => fuel_of (snd kv)) d Hitem items Ed).
    cbn [fuel_of String.append String.length]. rewrite length_append.
    cbn [String.length]. lia.
  - discriminate.
Qed.

(** [json.loads(json.dumps(v))] succeeds whenever [json.dumps(v)] does, and
    returns [json_norm v]. *)
Theorem json_loads_dumps (v : pyval) (s : string) :
  json_dumps v = inr s -> json_loads s = Some (json_norm v).
Proof.
  unfold json_dumps, json_loads. intros Hs.
  rewrite (skip_ws_value s (iterencode_starts_value _ _ Hs)).
  rewrite <- (append_nil_r s) at 2.
  rewrite (reads_back_all v s Hs (S (String.length s)) "");
    [reflexivity | | reflexivity].
  pose proof (fuel_of_length v s Hs). lia.
Qed.

(** ** Well-formed values are their own normal form *)

Lemma distinct_keys_NoDup (d : list (string * pyval)) :
  distinct_keys d = true -> NoDup (map fst d).
Proof.
  induction d as [|[k x] d IH]; cbn [distinct_keys map fst]; [constructor|].
  intros [Hk Hd]%andb_prop. constructor; [|auto].
  intros Hin%list_elem_of_In%in_map_iff. destruct Hin as ([k' x'] & Heq & Hin).
  cbn [fst] in Heq. subst k'.
  apply negb_true_iff in Hk. apply not_true_iff_false in Hk. apply Hk.
  apply existsb_exists. exists (k, x'). split; [exact Hin|].
  apply String.eqb_refl.
Qed.

Lemma dict_set_fresh (k : string) (v : pyval) (d : list (string * pyval)) :
  k ∉ map fst d -> dict_set k v d = d ++ [(k, v)].
Proof.
  induction d as [|[k' x] d IH]; cbn [dict_set map fst]; [reflexivity|].
  intros Hk. apply not_elem_of_cons in Hk as [Hne Hk].
  destruct (String.eqb_spec k' k) as [->|_]; [congruence|].
  now rewrite IH.
Qed.

Lemma dict_of_pairs_app (ps acc : list (string * pyval)) :
  NoDup (map fst (acc ++ ps)) ->
  fold_left (fun d kv => dict_set (fst kv) (snd kv) d) ps acc = acc ++ ps.
Proof.
  revert acc. induction ps as [|[k v] ps IH]; intros acc Hnd; cbn [fold_left].
  - now rewrite app_nil_r.
  - cbn [fst snd]. rewrite dict_set_fresh.
    + rewrite IH; rewrite <- app_assoc; [reflexivity | exact Hnd].
    + rewrite map_app in Hnd. apply NoDup_app in Hnd as (_ & Hdisj & _).
      intros Hin. apply (Hdisj k Hin). cbn [map fst]. left.
Qed.

Lemma dict_of_pairs_distinct (d : list (string * pyval)) :
  distinct_keys d = true -> dict_of_pairs d = d.
Proof.
  intros Hd. unfold dict_of_pairs.
  now rewrite dict_of_pairs_app; [|apply distinct_keys_NoDup].
Qed.

Lemma json_norm_wf (v : pyval) : py_wf v = true -> json_norm v = v.
Proof.
  induction v as [|b|n|t|l IH|d IH|b t attrs IH] using pyval_ind;
    cbn [py_wf json_norm]; intros Hwf; try reflexivity.
  - f_equal. induction IH as [|x xs Hx _ IHxs]; [reflexivity|].
    cbn [forallb map] in *. apply andb_prop in Hwf as [Hx' Hxs'].
    now rewrite Hx, IHxs.
  - apply andb_prop in Hwf as [Hkeys Hall]. f_equal.
    rewrite <- (dict_of_pairs_distinct d Hkeys) at 2. f_equal.
    clear Hkeys. induction IH as [|[k x] xs Hx _ IHxs]; [reflexivity|].
    cbn [forallb map fst snd] in *. apply andb_prop in Hall as [Hx' Hxs'].
    now rewrite Hx, IHxs.
Qed.

(** ** The handler, step by step *)

Section HandlerSteps.

Variable py_repr : pyval -> string.
Variable environ : gmap string string.
Variables event context : pyval.

Lemma make_response_dumps (body : string) :
  exists response_json, json_dumps (make_response body) = inr response_json.
Proof. eexists. reflexivity. Qed.

(** The handler unfolded: each of the four fallible steps either raises, and
    the handler stops there, or hands its value on. *)
Lemma lambda_handler_steps :
  lambda_handler py_repr environ event context =
  match json_dumps event with
  | inl e => ([], inl e)
  | inr event_json =>
      match call_get event "name" (VStr "World") with
      | inl e => ([received event_json], inl e)
      | inr name =>
          match context_version context with
          | inl e => ([received event_json], inl e)
          | inr function_version =>
              match json_dumps
                      (body_dict py_repr name
                                 (environ_get environ "STAGE" "development")
                                 (environ_get environ "LOG_LEVEL" "INFO")
                                 function_version) with
              | inl e => ([received event_json], inl e)
              | inr body =>
                  match json_dumps (make_response body) with
                  | inl e => ([received event_json], inl e)
                  | inr response_json =>
                      ([received event_json; returning response_json],
                       inr (make_response body))
                  end
              end
          end
      end
  end.
Proof.
  unfold lambda_handler, context_version, make_response, bind, lift, ret,
    logger_info.
  destruct (json_dumps event) as [e|event_json]; [reflexivity|].
  destruct (call_get event "name" (VStr "World")) as [e|name]; [reflexivity|].
  destruct (truthy context);
    [destruct (getattr context "function_version") as [e|function_version];
     [reflexivity|] | ];
    (destruct (json_dumps (body_dict _ _ _ _ _)) as [e|body]; [reflexivity|]);
    destruct (json_dumps (VDict [("statusCode", VInt 200); ("body", VStr body)]));
    reflexivity.
Qed.

End HandlerSteps.

Section HandlerFacts.

Variable py_repr : pyval -> string.

(** What is known of an invocation that returns a response. *)
Lemma lambda_handler_returns (environ : gmap string string)
      (event context : pyval) (logs : list log_record) (response : pyval) :
  lambda_handler py_repr environ event context = (logs, inr response) ->
  exists event_json name function_version body response_json,
    json_dumps event = inr event_json /\
    call_get event "name" (VStr "World") = inr name /\
    context_version context = inr function_version /\
    json_dumps (body_dict py_repr name
                          (environ_get environ "STAGE" "development")
                          (environ_get environ "LOG_LEVEL" "INFO")
                          function_version) = inr body /\
    json_dumps (make_response body) = inr response_json /\
    logs = [received event_json; returning response_json] /\
    response = make_response body.
Proof.
  rewrite lambda_handler_steps.
  destruct (json_dumps event) as [e|event_json] eqn:Hev; [discriminate|].
  destruct (call_get event "name" (VStr "World")) as [e|name] eqn:Hname;
    [discriminate|].
  destruct (context_version context) as [e|function_version] eqn:Hctx;
    [discriminate|].
  destruct (json_dumps (body_dict _ _ _ _ _)) as [e|body] eqn:Hbody;
    [discriminate|].
  destruct (json_dumps (make_response body)) as [e|response_json] eqn:Hresp;
    [discriminate|].
  intros [= <- <-]. eexists _, _, _, _, _.
  repeat match goal with |- _ /\ _ => split end;
    first [eassumption | reflexivity].
Qed.

(** The text of the body parses to the four fields the handler put in it. *)
Lemma body_dict_loads (name : pyval) (stage log_level : string)
      (function_version : pyval) (body : string) :
  json_dumps (body_dict py_repr name stage log_level function_version) = inr body ->
  json_loads body =
  Some (VDict [("message", VStr ("Hello, " +:+ py_format py_repr name +:+ "!"));
               ("stage", VStr stage);
               ("log_level", VStr log_level);
               ("function_version", json_norm function_version)]).
Proof. intros H. rewrite (json_loads_dumps _ _ H). reflexivity. Qed.

(** The parsed body of a returned response, in full. *)
Lemma response_body_returns (environ : gmap string string)
      (event context : pyval) (logs : list log_record) (response : pyval) :
  lambda_handler py_repr environ event context = (logs, inr response) ->
  exists name function_version,
    call_get event "name" (VStr "World") = inr name /\
    context_version context = inr function_version /\
    response_body response =
    Some (VDict [("message", VStr ("Hello, " +:+ py_format py_repr name +:+ "!"));
                 ("stage", VStr (environ_get environ "STAGE" "development"));
                 ("log_level", VStr (environ_get environ "LOG_LEVEL" "INFO"));
                 ("function_version", json_norm function_version)]).
Proof.
  intros H. apply lambda_handler_returns in H
    as (event_json & name & fv & body & response_json & _ & Hname & Hfv & Hbody
        & _ & _ & ->).
  exists name, fv. repeat split; try assumption.
  unfold response_body, make_response. cbn [field dict_lookup String.eqb Ascii.eqb Bool.eqb].
  now apply body_dict_loads.
Qed.


End HandlerFacts.

(** * The claims of the specification *)

Section Claims.

Variable py_repr : pyval -> string.

(** C1. For every event mapping that holds the string [X] under the key
    [name], an invocation that returns a response returns one whose body,
    parsed as JSON, has the [message] field [Hello, X!]. *)
Theorem greeting_uses_name (environ : gmap string string)
        (d : list (string * pyval)) (context : pyval) (X : string)
        (logs : list log_record) (response : pyval) :
  dict_lookup "name" d = Some (VStr X) ->
  lambda_handler py_repr environ (VDict d) context = (logs, inr response) ->
  body_field "message" response = Some (VStr ("Hello, " +:+ X +:+ "!")).
Proof.
  intros Hname H.
  apply response_body_returns in H as (name & fv & Hget & _ & Hbody).
  cbn [call_get] in Hget. rewrite Hname in Hget. injection Hget as <-.
  unfold body_field. rewrite Hbody. reflexivity.
Qed.

(** C2. For every event and every context, the response the handler returns
    has the [statusCode] 200: no input reaches another status code. *)
Theorem status_code_is_200 (environ : gmap string string)
        (event context : pyval) (logs : list log_record) (response : pyval) :
  lambda_handler py_repr environ event context = (logs, inr response) ->
  field "statusCode" response = Some (VInt 200).
Proof.
  intros H.
  apply lambda_handler_returns in H as (? & ? & ? & ? & ? & _ & _ & _ & _ & _ & _ & ->).
  reflexivity.
Qed.

(** C3. The [stage] and [log_level] fields of the returned body are the
    values of the environment variables [STAGE] and [LOG_LEVEL] of the
    invocation, and [development] and [INFO] when the variable is unset. *)
Theorem stage_and_log_level_from_environ (environ : gmap string string)
        (event context : pyval) (logs : list log_record) (response : pyval) :
  lambda_handler py_repr environ event context = (logs, inr response) ->
  body_field "stage" response =
    Some (VStr (match environ !! "STAGE" with
                | Some v => v
                | None => "development"
                end)) /\
  body_field "log_level" response =
    Some (VStr (match environ !! "LOG_LEVEL" with
                | Some v => v
                | None => "INFO"
                end)).
Proof.
  intros H.
  apply response_body_returns in H as (name & fv & _ & _ & Hbody).
  unfold body_field. rewrite Hbody. split; reflexivity.
Qed.

(** C4. The [function_version] field of the returned body is the
    [function_version] attribute of the context when the context is truthy,
    and [unknown] otherwise, in particular when the context is [None]. The
    context is a Python value: its dictionaries have distinct keys. *)
Theorem function_version_from_context (environ : gmap string string)
        (event context : pyval) (logs : list log_record) (response : pyval) :
  py_wf context = true ->
  lambda_handler py_repr environ event context = (logs, inr response) ->
  (truthy context = true ->
   exists v, getattr context "function_version" = inr v /\
             body_field "function_version" response = Some v) /\
  (truthy context = false ->
   body_field "function_version" response = Some (VStr "unknown")) /\
  (context = VNone ->
   body_field "function_version" response = Some (VStr "unknown")).
Proof.
  intros Hwf H.
  apply response_body_returns in H as (name & fv & _ & Hctx & Hbody).
  unfold body_field. rewrite Hbody. cbn [field dict_lookup String.eqb Ascii.eqb Bool.eqb].
  unfold context_version in Hctx.
  assert (Hfalse : truthy context = false ->
                   Some (json_norm fv) = Some (VStr "unknown")).
  { intros Ht. rewrite Ht in Hctx. injection Hctx as <-. reflexivity. }
  split; [|split].
  - intros Ht. rewrite Ht in Hctx. exists fv. split; [exact Hctx|].
    f_equal. apply json_norm_wf.
    destruct context as [| | | | | |b s attrs]; try discriminate Hctx.
    cbn [getattr] in Hctx. cbn [py_wf] in Hwf.
    apply andb_prop in Hwf as [_ Hall].
    destruct (dict_lookup "function_version" attrs) as [v|] eqn:Hv;
      [|discriminate]. injection Hctx as ->.
    clear -Hall Hv. induction attrs as [|[k x] attrs IH]; [discriminate|].
    cbn [dict_lookup forallb snd] in *. apply andb_prop in Hall as [Hx Hall].
    destruct (String.eqb k "function_version"); [congruence | auto].
  - exact Hfalse.
  - intros ->. now apply Hfalse.
Qed.

(** C5. For every event mapping without the key [name], the [message] field
    of the returned body is [Hello, World!]. *)
Theorem greeting_defaults_to_world (environ : gmap string string)
        (d : list (string * pyval)) (context : pyval)
        (logs : list log_record) (response : pyval) :
  dict_lookup "name" d = None ->
  lambda_handler py_repr environ (VDict d) context = (logs, inr response) ->
  body_field "message" response = Some (VStr "Hello, World!").
Proof.
  intros Hname H.
  apply response_body_returns in H as (name & fv & Hget & _ & Hbody).
  cbn [call_get] in Hget. rewrite Hname in Hget. injection Hget as <-.
  unfold body_field. rewrite Hbody. reflexivity.
Qed.

(** C6. The event [{name: Ada}], with [LOG_LEVEL] and [STAGE] unset and a
    context object whose [function_version] is the string [3]: the handler
    returns, the [statusCode] is 200 and the body parses to the mapping of
    [message] to [Hello, Ada!], [stage] to [development], [log_level] to
    [INFO] and [function_version] to [3]. *)
Theorem scenario_ada (environ : gmap string string) (o_str : string)
        (o_attrs : list (string * pyval)) :
  environ !! "LOG_LEVEL" = None ->
  environ !! "STAGE" = None ->
  dict_lookup "function_version" o_attrs = Some (VStr "3") ->
  exists logs response,
    lambda_handler py_repr environ (VDict [("name", VStr "Ada")])
                   (VObj true o_str o_attrs) = (logs, inr response) /\
    field "statusCode" response = Some (VInt 200) /\
    response_body response =
    Some (VDict [("message", VStr "Hello, Ada!");
                 ("stage", VStr "development");
                 ("log_level", VStr "INFO");
                 ("function_version", VStr "3")]).
Proof.
  intros Hlevel Hstage Hversion.
  rewrite lambda_handler_steps. unfold context_version, environ_get.
  cbn [truthy getattr]. rewrite Hlevel, Hstage, Hversion.
  eexists _, _. split; [reflexivity|]. split; reflexivity.
Qed.

(** C7. The handler recovers from nothing. Whichever step raises (the
    serialization of the event, the [get] on the event, the attribute access
    on a truthy context, the serialization of the body of the response), the
    handler ends with that very exception and returns no response; the log
    holds what was emitted before. The last serialization, of the response
    dictionary on line 40, is of an integer and a string and cannot raise
    ([make_response_dumps]). *)
Theorem failures_propagate (environ : gmap string string)
        (event context : pyval) (e : exn) :
  (json_dumps event = inl e ->
   lambda_handler py_repr environ event context = ([], inl e)) /\
  (forall event_json,
      json_dumps event = inr event_json ->
      call_get event "name" (VStr "World") = inl e ->
      lambda_handler py_repr environ event context =
      ([received event_json], inl e)) /\
  (forall event_json name,
      json_dumps event = inr event_json ->
      call_get event "name" (VStr "World") = inr name ->
      truthy context = true ->
      getattr context "function_version" = inl e ->
      lambda_handler py_repr environ event context =
      ([received event_json], inl e)) /\
  (forall event_json name function_version,
      json_dumps event = inr event_json ->
      call_get event "name" (VStr "World") = inr name ->
      context_version context = inr function_version ->
      json_dumps (body_dict py_repr name
                            (environ_get environ "STAGE" "development")
                            (environ_get environ "LOG_LEVEL" "INFO")
                            function_version) = inl e ->
      lambda_handler py_repr environ event context =
      ([received event_json], inl e)).
Proof.
  repeat match goal with |- _ /\ _ => split end.
  - intros Hev. now rewrite lambda_handler_steps, Hev.
  - intros event_json Hev Hget. now rewrite lambda_handler_steps, Hev, Hget.
  - intros event_json name Hev Hget Ht Hattr.
    rewrite lambda_handler_steps, Hev, Hget. unfold context_version.
    now rewrite Ht, Hattr.
  - intros event_json name fv Hev Hget Hctx Hbody.
    now rewrite lambda_handler_steps, Hev, Hget, Hctx, Hbody.
Qed.

(** C8. The response of an invocation that returns is the dictionary of
    [statusCode] 200 and a [body] string, and that string is valid JSON: it
    parses to a mapping with exactly the keys [message], [stage],
    [log_level] and [function_version], the first three holding strings. No
    path returns another shape. *)
Theorem body_is_json_mapping (environ : gmap string string)
        (event context : pyval) (logs : list log_record) (response : pyval) :
  lambda_handler py_repr environ event context = (logs, inr response) ->
  exists body message stage log_level function_version,
    response = VDict [("statusCode", VInt 200); ("body", VStr body)] /\
    json_loads body =
    Some (VDict [("message", VStr message);
                 ("stage", VStr stage);
                 ("log_level", VStr log_level);
                 ("function_version", function_version)]).
Proof.
  intros H.
  apply lambda_handler_returns in H
    as (event_json & name & fv & body & response_json & _ & _ & _ & Hbody
        & _ & _ & ->).
  exists body. eexists _, _, _, _. split; [reflexivity|].
  exact (body_dict_loads py_repr _ _ _ _ _ Hbody).
Qed.

(** C9, as amended. An invocation that returns a response has emitted
    exactly two log records, both at level [INFO] and in this order: the
    first holds the JSON text of the event, the second the JSON text of the
    response returned. The handler's monad has no effect but the log. *)
Theorem two_log_lines_when_returning (environ : gmap string string)
        (event context : pyval) (logs : list log_record) (response : pyval) :
  lambda_handler py_repr environ event context = (logs, inr response) ->
  exists event_json response_json,
    json_dumps event = inr event_json /\
    json_dumps response = inr response_json /\
    logs = [LogRecord INFO ("Received event: " +:+ event_json);
            LogRecord INFO ("Returning response: " +:+ response_json)].
Proof.
  intros H.
  apply lambda_handler_returns in H
    as (event_json & name & fv & body & response_json & Hev & _ & _ & _
        & Hresp & -> & ->).
  exists event_json, response_json. repeat split; assumption.
Qed.

(** C10. The response depends on the event through its [name] entry only,
    on the environment through [LOG_LEVEL] and [STAGE] only, and on the
    context through the [function_version] read from it only: two
    invocations that both return, whose events agree on [name] (absent in
    both, or present with the same value), whose environments agree on the
    two variables and whose contexts give the same [function_version], in
    particular two invocations under the same environment and the same
    context, return the same response. *)
Theorem response_depends_only_on_inputs
        (environ1 environ2 : gmap string string)
        (event1 event2 context1 context2 : pyval)
        (logs1 logs2 : list log_record) (response1 response2 : pyval) :
  field "name" event1 = field "name" event2 ->
  environ1 !! "LOG_LEVEL" = environ2 !! "LOG_LEVEL" ->
  environ1 !! "STAGE" = environ2 !! "STAGE" ->
  context_version context1 = context_version context2 ->
  lambda_handler py_repr environ1 event1 context1 = (logs1, inr response1) ->
  lambda_handler py_repr environ2 event2 context2 = (logs2, inr response2) ->
  response1 = response2.
Proof.
  intros Hname Hlevel Hstage Hversion H1 H2.
  apply lambda_handler_returns in H1
    as (? & name1 & fv1 & body1 & ? & _ & Hget1 & Hctx1 & Hbody1 & _ & _ & ->).
  apply lambda_handler_returns in H2
    as (? & name2 & fv2 & body2 & ? & _ & Hget2 & Hctx2 & Hbody2 & _ & _ & ->).
  assert (fv1 = fv2) as -> by congruence.
  assert (name1 = name2) as ->.
  { destruct event1 as [| | | | |d1|? ? a1], event2 as [| | | | |d2|? ? a2];
      cbn [call_get field] in *; try discriminate;
      try (destruct (dict_lookup "get" a1); discriminate);
      try (destruct (dict_lookup "get" a2); discriminate).
    rewrite Hname in Hget1. congruence. }
  unfold environ_get in *. rewrite Hlevel, Hstage in Hbody1.
  congruence.
Qed.

(** X4. An invocation that raises has logged nothing when the event itself
    could not be serialized, and the first record only otherwise: a record
    of a response is never logged without the response being returned. *)
Lemma logs_when_raising (environ : gmap string string)
      (event context : pyval) (logs : list log_record) (e : exn) :
  lambda_handler py_repr environ event context = (logs, inl e) ->
  (logs = [] /\ json_dumps event = inl e) \/
  (exists event_json,
      json_dumps event = inr event_json /\ logs = [received event_json]).
Proof.
  rewrite lambda_handler_steps.
  destruct (json_dumps event) as [e0|event_json];
    [intros [= <- <-]; now left|].
  right. exists event_json. split; [reflexivity|].
  destruct (call_get event "name" (VStr "World")); [congruence|].
  destruct (context_version context); [congruence|].
  destruct (json_dumps (body_dict _ _ _ _ _)); [congruence|].
  destruct (json_dumps (make_response _)); congruence.
Qed.

End Claims.

(** * The claims at concrete invocations *)

(** An event with a name among other keys, and no context. *)
Lemma greeting_uses_name_witness :
  exists logs response,
    dict_lookup "name" [("id", VInt 7); ("name", VStr "Ada")] = Some (VStr "Ada") /\
    lambda_handler sample_repr ∅ (VDict [("id", VInt 7); ("name", VStr "Ada")])
                   VNone = (logs, inr response) /\
    body_field "message" response = Some (VStr "Hello, Ada!").
Proof.
  eexists _, _. split; [reflexivity|]. split; [reflexivity|].
  apply (greeting_uses_name sample_repr ∅ [("id", VInt 7); ("name", VStr "Ada")]
           VNone "Ada" _ _ eq_refl eq_refl).
Defined.

(** An empty event under the platform's context. *)
Lemma status_code_is_200_witness :
  exists logs response,
    lambda_handler sample_repr ∅ (VDict []) sample_context = (logs, inr response) /\
    field "statusCode" response = Some (VInt 200).
Proof.
  eexists _, _. split; [reflexivity|].
  apply (status_code_is_200 sample_repr ∅ (VDict []) sample_context _ _ eq_refl).
Defined.

(** [STAGE] set and [LOG_LEVEL] unset. *)
Lemma stage_and_log_level_from_environ_witness :
  exists logs response,
    lambda_handler sample_repr {["STAGE" := "production"]} (VDict []) VNone
    = (logs, inr response) /\
    body_field "stage" response = Some (VStr "production") /\
    body_field "log_level" response = Some (VStr "INFO").
Proof.
  eexists _, _. split; [reflexivity|].
  exact (stage_and_log_level_from_environ
           sample_repr {["STAGE" := "production"]} (VDict []) VNone _ _ eq_refl).
Defined.

(** The platform's context, whose [function_version] is [7]. *)
Lemma function_version_from_context_witness :
  exists logs response,
    py_wf sample_context = true /\
    lambda_handler sample_repr ∅ (VDict []) sample_context = (logs, inr response) /\
    truthy sample_context = true /\
    body_field "function_version" response = Some (VStr "7").
Proof.
  eexists _, _. split; [reflexivity|]. split; [reflexivity|].
  split; [reflexivity|].
  destruct (function_version_from_context
              sample_repr ∅ (VDict []) sample_context _ _ eq_refl eq_refl)
    as [Htruthy _].
  destruct (Htruthy eq_refl) as (v & Hv & Hfield).
  injection Hv as <-. exact Hfield.
Defined.

(** An event with a key other than [name]. *)
Lemma greeting_defaults_to_world_witness :
  exists logs response,
    dict_lookup "name" [("id", VInt 7)] = None /\
    lambda_handler sample_repr ∅ (VDict [("id", VInt 7)]) sample_context
    = (logs, inr response) /\
    body_field "message" response = Some (VStr "Hello, World!").
Proof.
  eexists _, _. split; [reflexivity|]. split; [reflexivity|].
  apply (greeting_defaults_to_world sample_repr ∅ [("id", VInt 7)]
           sample_context _ _ eq_refl eq_refl).
Defined.

(** The scenario in the empty environment. *)
Lemma scenario_ada_witness :
  (∅ : gmap string string) !! "LOG_LEVEL" = None /\
  (∅ : gmap string string) !! "STAGE" = None /\
  dict_lookup "function_version" [("function_version", VStr "3")]
  = Some (VStr "3") /\
  exists logs response,
    lambda_handler sample_repr ∅ (VDict [("name", VStr "Ada")])
                   (VObj true "<LambdaContext>" [("function_version", VStr "3")])
    = (logs, inr response) /\
    field "statusCode" response = Some (VInt 200) /\
    response_body response =
    Some (VDict [("message", VStr "Hello, Ada!");
                 ("stage", VStr "development");
                 ("log_level", VStr "INFO");
                 ("function_version", VStr "3")]).
Proof.
  assert (Hlevel : (∅ : gmap string string) !! "LOG_LEVEL" = None)
    by reflexivity.
  assert (Hstage : (∅ : gmap string string) !! "STAGE" = None) by reflexivity.
  split; [exact Hlevel|]. split; [exact Hstage|]. split; [reflexivity|].
  exact (scenario_ada sample_repr ∅ "<LambdaContext>"
           [("function_version", VStr "3")] Hlevel Hstage eq_refl).
Defined.

(** One invocation for each step that can raise. *)
Lemma failures_propagate_witness :
  (json_dumps (VDict [("payload", sample_object)]) = inl TypeError /\
   lambda_handler sample_repr ∅ (VDict [("payload", sample_object)]) VNone
   = ([], inl TypeError)) /\
  (json_dumps VNone = inr "null" /\
   call_get VNone "name" (VStr "World") = inl AttributeError /\
   lambda_handler sample_repr ∅ VNone VNone
   = ([received "null"], inl AttributeError)) /\
  (json_dumps (VDict []) = inr "{}" /\
   call_get (VDict []) "name" (VStr "World") = inr (VStr "World") /\
   truthy (VInt 1) = true /\
   getattr (VInt 1) "function_version" = inl AttributeError /\
   lambda_handler sample_repr ∅ (VDict []) (VInt 1)
   = ([received "{}"], inl AttributeError)) /\
  (json_dumps (VDict []) = inr "{}" /\
   call_get (VDict []) "name" (VStr "World") = inr (VStr "World") /\
   context_version (VObj true "<ctx>" [("function_version", sample_object)])
   = inr sample_object /\
   json_dumps (body_dict sample_repr (VStr "World")
                         (environ_get ∅ "STAGE" "development")
                         (environ_get ∅ "LOG_LEVEL" "INFO") sample_object)
   = inl TypeError /\
   lambda_handler sample_repr ∅ (VDict [])
                  (VObj true "<ctx>" [("function_version", sample_object)])
   = ([received "{}"], inl TypeError)).
Proof.
  split; [|split; [|split]].
  - split; [reflexivity|].
    exact (proj1 (failures_propagate sample_repr ∅
                    (VDict [("payload", sample_object)]) VNone TypeError)
                 eq_refl).
  - split; [reflexivity|]. split; [reflexivity|].
    exact (proj1 (proj2 (failures_propagate sample_repr ∅ VNone VNone
                           AttributeError))
                 "null" eq_refl eq_refl).
  - split; [reflexivity|]. split; [reflexivity|]. split; [reflexivity|].
    split; [reflexivity|].
    exact (proj1 (proj2 (proj2 (failures_propagate sample_repr ∅ (VDict [])
                                  (VInt 1) AttributeError)))
                 "{}" (VStr "World") eq_refl eq_refl eq_refl eq_refl).
  - split; [reflexivity|]. split; [reflexivity|]. split; [reflexivity|].
    split; [reflexivity|].
    exact (proj2 (proj2 (proj2 (failures_propagate sample_repr ∅ (VDict [])
                                  (VObj true "<ctx>"
                                        [("function_version", sample_object)])
                                  TypeError)))
                 "{}" (VStr "World") sample_object eq_refl eq_refl eq_refl
                 eq_refl).
Defined.

(** An event whose [name] is a number. *)
Lemma body_is_json_mapping_witness :
  exists logs response,
    lambda_handler sample_repr ∅ (VDict [("name", VInt 5)]) sample_context
    = (logs, inr response) /\
    exists body message stage log_level function_version,
      response = VDict [("statusCode", VInt 200); ("body", VStr body)] /\
      json_loads body =
      Some (VDict [("message", VStr message);
                   ("stage", VStr stage);
                   ("log_level", VStr log_level);
                   ("function_version", function_version)]).
Proof.
  eexists _, _. split; [reflexivity|].
  exact (body_is_json_mapping sample_repr ∅ (VDict [("name", VInt 5)])
           sample_context _ _ eq_refl).
Defined.

(** C9, as stated, fails: an event that [json.dumps] rejects ends the
    invocation before the first record is emitted. *)
Lemma two_log_lines_not_on_every_invocation :
  lambda_handler sample_repr ∅ (VDict [("payload", sample_object)]) VNone
  = ([], inl TypeError) /\
  ~ (exists r1 r2,
        fst (lambda_handler sample_repr ∅
                            (VDict [("payload", sample_object)]) VNone)
        = [r1; r2]).
Proof.
  split; [reflexivity|]. intros (r1 & r2 & H). discriminate H.
Qed.

(** A JSON payload that is no object, here [null], gets the first record
    only. *)
Lemma one_log_line_on_null_event :
  lambda_handler sample_repr ∅ VNone sample_context
  = ([received "null"], inl AttributeError).
Proof. reflexivity. Qed.

(** The two records of an invocation that returns. *)
Lemma two_log_lines_when_returning_witness :
  exists logs response,
    lambda_handler sample_repr ∅ (VDict [("name", VStr "Ada")]) VNone
    = (logs, inr response) /\
    exists event_json response_json,
      json_dumps (VDict [("name", VStr "Ada")]) = inr event_json /\
      json_dumps response = inr response_json /\
      logs = [LogRecord INFO ("Received event: " +:+ event_json);
              LogRecord INFO ("Returning response: " +:+ response_json)].
Proof.
  eexists _, _. split; [reflexivity|].
  exact (two_log_lines_when_returning sample_repr ∅
           (VDict [("name", VStr "Ada")]) VNone _ _ eq_refl).
Defined.

(** Two invocations that differ in the other keys of the event, in the other
    variables of the environment and in the other attributes of the context:
    the logs differ, the responses do not. *)
Lemma response_depends_only_on_inputs_witness :
  exists logs1 logs2 response1 response2,
    field "name" (VDict [("name", VStr "Ada"); ("id", VInt 1)])
    = field "name" (VDict [("debug", VBool true); ("name", VStr "Ada")]) /\
    (<["HOME" := "/root"]> {["STAGE" := "production"]} : gmap string string)
      !! "LOG_LEVEL"
    = ({["STAGE" := "production"]} : gmap string string) !! "LOG_LEVEL" /\
    (<["HOME" := "/root"]> {["STAGE" := "production"]} : gmap string string)
      !! "STAGE"
    = ({["STAGE" := "production"]} : gmap string string) !! "STAGE" /\
    context_version sample_context
    = context_version (VObj true "<ctx>" [("function_version", VStr "7")]) /\
    lambda_handler sample_repr (<["HOME" := "/root"]> {["STAGE" := "production"]})
                   (VDict [("name", VStr "Ada"); ("id", VInt 1)]) sample_context
    = (logs1, inr response1) /\
    lambda_handler sample_repr {["STAGE" := "production"]}
                   (VDict [("debug", VBool true); ("name", VStr "Ada")])
                   (VObj true "<ctx>" [("function_version", VStr "7")])
    = (logs2, inr response2) /\
    logs1 <> logs2 /\
    response1 = response2.
Proof.
  assert (Hlevel :
            (<["HOME" := "/root"]> {["STAGE" := "production"]}
             : gmap string string) !! "LOG_LEVEL"
            = ({["STAGE" := "production"]} : gmap string string) !! "LOG_LEVEL")
    by reflexivity.
  assert (Hstage :
            (<["HOME" := "/root"]> {["STAGE" := "production"]}
             : gmap string string) !! "STAGE"
            = ({["STAGE" := "production"]} : gmap string string) !! "STAGE")
    by reflexivity.
  eexists _, _, _, _. split; [reflexivity|].
  split; [exact Hlevel|]. split; [exact Hstage|]. split; [reflexivity|].
  split; [reflexivity|]. split; [reflexivity|].
  split; [discriminate|].
  exact (response_depends_only_on_inputs sample_repr
           (<["HOME" := "/root"]> {["STAGE" := "production"]})
           {["STAGE" := "production"]}
           (VDict [("name", VStr "Ada"); ("id", VInt 1)])
           (VDict [("debug", VBool true); ("name", VStr "Ada")])
           sample_context (VObj true "<ctx>" [("function_version", VStr "7")])
           _ _ _ _ eq_refl Hlevel Hstage eq_refl eq_refl eq_refl).
Defined.

(** * Further properties of the handler *)

(** ** When [json.dumps] raises *)






(** ** The output of [json.dumps] is printable ASCII *)

Lemma ascii_only_append (a b : string) :
  ascii_only a = true -> ascii_only b = true -> ascii_only (a +:+ b) = true.
Proof.
  intros Ha Hb. induction a as [|c a IH]; [exact Hb|].
  cbn [String.append ascii_only] in *. apply andb_prop in Ha as [Hc Ha].
  now rewrite Hc, IH.
Qed.

Lemma escape_char_ascii (c : ascii) : ascii_only (escape_char c) = true.
Proof. destruct c as [[] [] [] [] [] [] [] []]; reflexivity. Qed.

Lemma escape_string_ascii (s : string) : ascii_only (escape_string s) = true.
Proof.
  induction s as [|c s IH]; [reflexivity|]. cbn [escape_string].
  apply ascii_only_append; [apply escape_char_ascii | exact IH].
Qed.

Lemma encode_basestring_ascii_only (s : string) :
  ascii_only (encode_basestring_ascii s) = true.
Proof.
  unfold encode_basestring_ascii. cbn [ascii_only]. apply andb_true_intro.
  split; [reflexivity|].
  apply ascii_only_append; [apply escape_string_ascii | reflexivity].
Qed.

Lemma uint_string_ascii (d : uint) : ascii_only (uint_string d) = true.
Proof. induction d; cbn [uint_string ascii_only]; [reflexivity|..]; exact IHd. Qed.

Lemma int_repr_ascii (n : Z) : ascii_only (int_repr n) = true.
Proof.
  destruct n; cbn [int_repr ascii_only]; [reflexivity|..];
    apply uint_string_ascii.
Qed.

Lemma concat_ascii (items : list string) :
  Forall (fun s => ascii_only s = true) items ->
  ascii_only (String.concat ", " items) = true.
Proof.
  induction 1 as [|x xs Hx Hxs IH]; [reflexivity|].
  destruct xs as [|y ys]; [exact Hx|].
  rewrite concat_cons2.
  apply ascii_only_append; [exact Hx|].
  apply ascii_only_append; [reflexivity | exact IH].
Qed.

Lemma mapM_ascii {A : Type} (f : A -> except string) (l : list A) :
  Forall (fun x => forall s, f x = inr s -> ascii_only s = true) l ->
  forall items, mapM f l = inr items ->
  Forall (fun s => ascii_only s = true) items.
Proof.
  induction 1 as [|x xs Hx _ IH]; intros items Hitems; cbn [mapM] in Hitems.
  - injection Hitems as <-. constructor.
  - destruct (f x) as [|sx] eqn:Ex; [discriminate|].
    destruct (mapM f xs) as [|items']; [discriminate|].
    injection Hitems as <-. constructor; [now apply Hx | now apply IH].
Qed.

Lemma ascii_only_wrap (o c : ascii) (s : string) :
  printable o = true -> printable c = true -> ascii_only s = true ->
  ascii_only (String o (s +:+ String c "")) = true.
Proof.
  intros Ho Hc Hs. cbn [ascii_only]. rewrite Ho.
  apply ascii_only_append; [exact Hs|]. cbn [ascii_only]. now rewrite Hc.
Qed.

Lemma iterencode_ascii (v : pyval) :
  forall s, iterencode v = inr s -> ascii_only s = true.
Proof.
  induction v as [|b|n|t|l IH|d IH|b t attrs IH] using pyval_ind;
    intros s Hs; cbn [iterencode] in Hs.
  - injection Hs as <-. reflexivity.
  - destruct b; injection Hs as <-; reflexivity.
  - injection Hs as <-. apply int_repr_ascii.
  - injection Hs as <-. apply encode_basestring_ascii_only.
  - destruct (mapM iterencode l) as [|items] eqn:El; [discriminate|].
    injection Hs as <-. cbn [String.append].
    apply ascii_only_wrap; [reflexivity | reflexivity |].
    apply concat_ascii. exact (mapM_ascii iterencode l IH items El).
  - change (mapM _ d) with (mapM item_text d) in Hs.
    destruct (mapM item_text d) as [|items] eqn:Ed; [discriminate|].
    injection Hs as <-. cbn [String.append].
    apply ascii_only_wrap; [reflexivity | reflexivity |].
    apply concat_ascii. apply (mapM_ascii item_text d); [|exact Ed].
    eapply Forall_impl; [exact IH|]. intros [k x] Hx s. unfold item_text.
    cbn [fst snd] in *. destruct (iterencode x) as [|sx]; [discriminate|].
    intros [= <-].
    apply ascii_only_append; [apply encode_basestring_ascii_only|].
    cbn [String.append ascii_only]. now rewrite (Hx sx eq_refl).
  - discriminate.
Qed.

(** ** Which invocations return, and what the others raise *)

Section Further.

Variable py_repr : pyval -> string.







(** X5. The whole outcome of an invocation, its log records and its response
    or exception, depends on the environment through [LOG_LEVEL] and [STAGE]
    only and on the context through the [function_version] read from it
    only; so all falsy contexts give the same outcome, whatever they hold. *)
Theorem outcome_depends_only_on_inputs
        (environ1 environ2 : gmap string string)
        (event context1 context2 : pyval) :
  environ1 !! "LOG_LEVEL" = environ2 !! "LOG_LEVEL" ->
  environ1 !! "STAGE" = environ2 !! "STAGE" ->
  context_version context1 = context_version context2 ->
  lambda_handler py_repr environ1 event context1
  = lambda_handler py_repr environ2 event context2.
Proof.
  intros Hlevel Hstage Hversion. rewrite !lambda_handler_steps.
  unfold environ_get. now rewrite Hlevel, Hstage, Hversion.
Qed.


(** X7. Whatever the event holds, every message the handler logs and the
    body of every response it returns are made of printable ASCII
    characters only. *)
Theorem output_is_printable_ascii (environ : gmap string string)
        (event context : pyval) :
  Forall (fun r => ascii_only (msg r) = true)
         (fst (lambda_handler py_repr environ event context)) /\
  (forall logs response,
      lambda_handler py_repr environ event context = (logs, inr response) ->
      exists body,
        field "body" response = Some (VStr body) /\ ascii_only body = true).
Proof.
  assert (Hrec : forall s, json_dumps event = inr s ->
                           ascii_only (msg (received s)) = true).
  { intros s Hs. cbn [received msg].
    apply ascii_only_append; [reflexivity | exact (iterencode_ascii _ _ Hs)]. }
  split.
  - rewrite lambda_handler_steps.
    destruct (json_dumps event) as [e|event_json] eqn:Hev; [constructor|].
    destruct (call_get event "name" (VStr "World"));
      [repeat constructor; now apply Hrec|].
    destruct (context_version context);
      [repeat constructor; now apply Hrec|].
    destruct (json_dumps (body_dict _ _ _ _ _));
      [repeat constructor; now apply Hrec|].
    destruct (json_dumps (make_response _)) as [e|response_json] eqn:Hresp;
      cbn [fst]; repeat constructor; try now apply Hrec.
    cbn [returning msg].
    apply ascii_only_append; [reflexivity | exact (iterencode_ascii _ _ Hresp)].
  - intros logs response H.
    apply lambda_handler_returns in H
      as (event_json & name & fv & body & response_json & _ & _ & _ & Hbody
          & _ & _ & ->).
    exists body. split; [reflexivity | exact (iterencode_ascii _ _ Hbody)].
Qed.

(** X8. The default [World] is used for a missing key only: a [name] that
    is present is formatted as [str] formats it, whatever its value, so the
    value [None] gives [Hello, None!], the empty string [Hello, !] and a
    number its decimal digits. *)
Theorem present_name_is_formatted (environ : gmap string string)
        (d : list (string * pyval)) (context v : pyval)
        (logs : list log_record) (response : pyval) :
  dict_lookup "name" d = Some v ->
  lambda_handler py_repr environ (VDict d) context = (logs, inr response) ->
  body_field "message" response
  = Some (VStr ("Hello, " +:+ py_format py_repr v +:+ "!")) /\
  (v = VNone -> body_field "message" response = Some (VStr "Hello, None!")) /\
  (v = VStr "" -> body_field "message" response = Some (VStr "Hello, !")) /\
  (forall n, v = VInt n ->
             body_field "message" response
             = Some (VStr ("Hello, " +:+ int_repr n +:+ "!"))).
Proof.
  intros Hname H.
  apply response_body_returns in H as (name & fv & Hget & _ & Hbody).
  cbn [call_get] in Hget. rewrite Hname in Hget. injection Hget as <-.
  assert (Hmsg : body_field "message" response
                 = Some (VStr ("Hello, " +:+ py_format py_repr v +:+ "!"))).
  { unfold body_field. rewrite Hbody. reflexivity. }
  split; [exact Hmsg|]. split; [|split].
  - intros ->. exact Hmsg.
  - intros ->. exact Hmsg.
  - intros n ->. exact Hmsg.
Qed.

End Further.

(** * The further properties at concrete invocations *)




(** A context whose [function_version] cannot be serialized. *)
Lemma logs_when_raising_witness :
  exists logs,
    lambda_handler sample_repr ∅ (VDict [])
                   (VObj true "<ctx>" [("function_version", sample_object)])
    = (logs, inl TypeError) /\
    ((logs = [] /\ json_dumps (VDict []) = inl TypeError) \/
     (exists event_json,
         json_dumps (VDict []) = inr event_json /\
         logs = [received event_json])).
Proof.
  eexists. split; [reflexivity|].
  exact (logs_when_raising sample_repr ∅ (VDict [])
           (VObj true "<ctx>" [("function_version", sample_object)])
           _ _ eq_refl).
Defined.

(** The context [None] and a falsy object that holds a [function_version]. *)
Lemma outcome_depends_only_on_inputs_witness :
  (<["HOME" := "/root"]> {["STAGE" := "production"]} : gmap string string)
    !! "LOG_LEVEL"
  = ({["STAGE" := "production"]} : gmap string string) !! "LOG_LEVEL" /\
  (<["HOME" := "/root"]> {["STAGE" := "production"]} : gmap string string)
    !! "STAGE"
  = ({["STAGE" := "production"]} : gmap string string) !! "STAGE" /\
  context_version VNone
  = context_version (VObj false "<ctx>" [("function_version", VStr "7")]) /\
  lambda_handler sample_repr (<["HOME" := "/root"]> {["STAGE" := "production"]})
                 (VDict [("name", VStr "Ada")]) VNone
  = lambda_handler sample_repr {["STAGE" := "production"]}
                   (VDict [("name", VStr "Ada")])
                   (VObj false "<ctx>" [("function_version", VStr "7")]).
Proof.
  assert (Hlevel :
            (<["HOME" := "/root"]> {["STAGE" := "production"]}
             : gmap string string) !! "LOG_LEVEL"
            = ({["STAGE" := "production"]} : gmap string string) !! "LOG_LEVEL")
    by reflexivity.
  assert (Hstage :
            (<["HOME" := "/root"]> {["STAGE" := "production"]}
             : gmap string string) !! "STAGE"
            = ({["STAGE" := "production"]} : gmap string string) !! "STAGE")
    by reflexivity.
  split; [exact Hlevel|]. split; [exact Hstage|]. split; [reflexivity|].
  exact (outcome_depends_only_on_inputs sample_repr
           (<["HOME" := "/root"]> {["STAGE" := "production"]})
           {["STAGE" := "production"]}
           (VDict [("name", VStr "Ada")]) VNone
           (VObj false "<ctx>" [("function_version", VStr "7")])
           Hlevel Hstage eq_refl).
Defined.


(** A name with a character above the ASCII range. *)
Lemma output_is_printable_ascii_witness :
  exists logs response body,
    lambda_handler sample_repr ∅
                   (VDict [("name", VStr (String "233" "ric"))]) VNone
    = (logs, inr response) /\
    field "body" response = Some (VStr body) /\
    ascii_only (String "233" "ric") = false /\
    ascii_only body = true.
Proof.
  destruct (proj2 (output_is_printable_ascii sample_repr ∅
                     (VDict [("name", VStr (String "233" "ric"))]) VNone)
                  _ _ eq_refl) as (body & Hbody & Hascii).
  eexists _, _, body. split; [reflexivity|]. split; [exact Hbody|].
  split; [reflexivity | exact Hascii].
Defined.

(** A [name] that is present and holds [None]. *)
Lemma present_name_is_formatted_witness :
  exists logs response,
    dict_lookup "name" [("name", VNone)] = Some VNone /\
    lambda_handler sample_repr ∅ (VDict [("name", VNone)]) VNone
    = (logs, inr response) /\
    body_field "message" response = Some (VStr "Hello, None!").
Proof.
  eexists _, _. split; [reflexivity|]. split; [reflexivity|].
  exact (proj1 (proj2 (present_name_is_formatted sample_repr ∅
                         [("name", VNone)] VNone VNone _ _ eq_refl eq_refl))
               eq_refl).
Defined.
